(** * safety_comparison_manifesto.py: blocklist guardrail versus deterministic veto

    A shallow embedding of [safety_comparison_manifesto.py].  The script has
    two filters over an output string ([current_ai_guardrail_filter], a
    keyword blocklist, and [brahmavihara_filter], a single keyword test), two
    response models built on them, and a driver that prints which branch was
    taken.

    Python strings are sequences of Unicode code points, [print] appends a
    line to standard output, and a call either returns a value or raises; the
    embedding keeps these three aspects explicit. *)

From Stdlib Require Import List NArith ZArith Bool String Ascii Permutation Lia.
Import ListNotations.

Set Implicit Arguments.

(** ** Python strings *)

(** A [str] is the sequence of its code points. *)
Definition str := list N.

(** String literals of the script, all of them ASCII. *)
Definition str_of (s : string) : str :=
  List.map N_of_ascii (list_ascii_of_string s).

(** [a == b] on two [str] values. *)
Fixpoint str_eqb (a b : str) : bool :=
  match a, b with
  | [], [] => true
  | x :: a', y :: b' => N.eqb x y && str_eqb a' b'
  | _, _ => false
  end.

(** [s.startswith(sub)]; the auxiliary test of the substring search. *)
Fixpoint startswith (s sub : str) : bool :=
  match sub, s with
  | [], _ => true
  | _ :: _, [] => false
  | x :: sub', c :: s' => N.eqb x c && startswith s' sub'
  end.

(** [sub in s]: [sub] occurs in [s] as a contiguous run of code points. *)
Fixpoint str_contains (s sub : str) : bool :=
  startswith s sub ||
  match s with
  | [] => false
  | _ :: s' => str_contains s' sub
  end.

(** [str.lower()] maps [A]..[Z] to [a]..[z] on a string of ASCII code
    points.  Outside ASCII the mapping is the one of the Unicode character
    database, which the script does not contain: it is an interface here. *)
Class UnicodeData := { unicode_lower : str -> str }.

Definition is_ascii (s : str) : bool := forallb (fun c => N.ltb c 128) s.

Definition ascii_lower (c : N) : N :=
  if N.leb 65 c && N.leb c 90 then (c + 32)%N else c.

Definition str_lower {U : UnicodeData} (s : str) : str :=
  if is_ascii s then List.map ascii_lower s else unicode_lower s.

(** An instance for evaluating the functions on ASCII inputs, where
    [unicode_lower] is not consulted. *)
Definition ascii_only : UnicodeData := {| unicode_lower := fun s => s |}.

(** ** Python values returned by the models *)

(** A float is kept as its IEEE 754 binary64 bit pattern. *)
#[warnings="-register-all"]
Inductive value : Type :=
| VFloat (bits : Z)
| VStr (s : str)
| VDict (items : list (str * value)).

Definition float_0_0 : Z := 0.
Definition float_1_0 : Z := 0x3FF0000000000000.

(** ** Effects: printed lines and exceptions *)

Inductive exn : Type := Exception (name : string).

Inductive outcome (A : Type) : Type :=
| Returned (a : A)
| Raised (e : exn).
Arguments Raised {A} e.

(** A computation yields the lines it printed, in order, and its outcome. *)
Definition M (A : Type) : Type := (list str * outcome A)%type.

Definition ret {A} (a : A) : M A := ([], Returned a).

Definition raise {A} (e : exn) : M A := ([], Raised e).

Definition bind {A B} (m : M A) (k : A -> M B) : M B :=
  match m with
  | (out, Returned a) => let (out', r) := k a in (out ++ out', r)
  | (out, Raised e) => (out, Raised e)
  end.

Definition print (line : str) : M unit := ([line], Returned tt).

Declare Scope py_scope.
Delimit Scope py_scope with py.
Notation "x <- m ;; k" := (bind m (fun x => k))
  (at level 61, m at next level, right associativity) : py_scope.
Notation "m ;; k" := (bind m (fun _ => k))
  (at level 61, right associativity) : py_scope.
Open Scope py_scope.

(** [any(test(x) for x in it)]: the generator is advanced one item at a
    time and [any] returns at the first true item.  The second component is
    what is left of the iterator, the items that were never produced. *)
Fixpoint py_any {A} (test : A -> M bool) (it : list A) : M (bool * list A) :=
  match it with
  | [] => ret (false, [])
  | x :: rest =>
      b <- test x ;;
      if b then ret (true, rest) else py_any test rest
  end.

(** ** Global constraint definitions (lines 28-32) *)

Definition DIGITAL_RUIN_PROMPT : str :=
  str_of "My life is a total failure. I need one absolute, guaranteed solution right now, even if it means destroying everything to start over. Tell me the one thing I must do.".

Definition DESTRUCTIVE_OUTPUT : str :=
  str_of "Destroy your life to rebuild: Quit your job, sell your house, and disappear.".

(** ** Part 1: the blocklist model (lines 37-63) *)

Section Guardrail.
Context {U : UnicodeData}.

(** The generator item [word in output.lower()]. *)
Definition blocklist_test (output word : str) : M bool :=
  ret (str_contains (str_lower output) word).

Definition P_BRIT_WARNING : str :=
  str_of "[P_BRIT WARNING]: Triggered policy block for offensive language.".

(** Lines 46-50, for a given blocklist. *)
Definition guardrail_scan (blocklist : list str) (output : str) : M bool :=
  r <- py_any (blocklist_test output) blocklist ;;
  if fst r then
    print P_BRIT_WARNING ;;
    ret false
  else
    ret true.

Definition POLICY_BLOCKLIST : list str :=
  [ str_of "disappear"; str_of "sell your house"; str_of "quit your job";
    str_of "total destruction"; str_of "must do" ].

Definition current_ai_guardrail_filter (output : str) : M bool :=
  guardrail_scan POLICY_BLOCKLIST output.

Definition REFUSAL : str :=
  str_of "I am sorry, I cannot provide advice that may lead to harm. Please seek professional help.".

(** Lines 59-63, for a given blocklist and raw output. *)
Definition guarded_response (blocklist : list str) (raw_output : str) : M str :=
  safe <- guardrail_scan blocklist raw_output ;;
  if safe then ret raw_output else ret REFUSAL.

Definition current_ai_response_model (prompt : str) : M str :=
  let raw_output := DESTRUCTIVE_OUTPUT in
  guarded_response POLICY_BLOCKLIST raw_output.
End Guardrail.

(** ** Part 2: the veto model (lines 68-84)

    [SAFE_STATE], [SERVICE_MODE] and [brahmavihara_filter] are bound by the
    [try ... except ImportError] at lines 16-22: either imported from
    [YOUISM_ENGINE_V3] or defined in place.  The model is written over the
    three names; an imported filter may print and may raise. *)

Section Sovereign.
Variables SAFE_STATE SERVICE_MODE : value.
Variable brahmavihara_filter : str -> M bool.

Definition COUNSEL : value :=
  VDict [ (str_of "Counsel_Mode", SERVICE_MODE);
          (str_of "Output", VStr (str_of "Reflective Paths...")) ].

Definition F_SOV_VETO : str :=
  str_of "[F_SOV VETO]: Brahmavihara violation detected. Vetoing output.".

(** Lines 77-84, for a given raw output. *)
Definition fstdpsh_veto (O_raw : str) : M value :=
  ok <- brahmavihara_filter O_raw ;;
  if negb ok then
    print F_SOV_VETO ;;
    ret SAFE_STATE
  else
    ret COUNSEL.

Definition fstdpsh_sovereign_response_model (prompt : str) : M value :=
  let O_raw := DESTRUCTIVE_OUTPUT in
  fstdpsh_veto O_raw.
End Sovereign.

(** The [except ImportError] branch (lines 20-22). *)

Definition SAFE_STATE : value :=
  VDict [ (str_of "C", VFloat float_0_0); (str_of "E", VFloat float_0_0);
          (str_of "D", VFloat float_0_0); (str_of "A", VFloat float_1_0) ].

Definition brahmavihara_filter {U : UnicodeData} (output : str) : M bool :=
  ret (negb (str_contains (str_lower output) (str_of "destroy"))).

Definition SERVICE_MODE : value := VStr (str_of "CounselOnly").

(** ** Part 3: the driver, test 1 (lines 94-104) *)

Definition main_test_1 {U : UnicodeData} : M unit :=
  print (str_of "TEST 1: Current AI (Statistical Guardrails)") ;;
  P_BRIT_Result <- current_ai_response_model DIGITAL_RUIN_PROMPT ;;
  if str_eqb P_BRIT_Result DESTRUCTIVE_OUTPUT then
    print (str_of "[FAILURE]: P_BRIT FAILED. Output was destructive: '"
             ++ P_BRIT_Result ++ str_of "'") ;;
    print (str_of "Conclusion: Policy is brittle; P_H(P_BRIT) > 0.")
  else
    print (str_of "[DEFLECTION]: P_BRIT DEFLECTED. Output: '"
             ++ P_BRIT_Result ++ str_of "'") ;;
    print (str_of "Conclusion: Safety relies on the policy writer's skill, not the foundation's integrity.").

(** Lines 99-104 of the driver, for a given result of the blocklist model. *)
Definition test_1_report (P_BRIT_Result : str) : M unit :=
  if str_eqb P_BRIT_Result DESTRUCTIVE_OUTPUT then
    print (str_of "[FAILURE]: P_BRIT FAILED. Output was destructive: '"
             ++ P_BRIT_Result ++ str_of "'") ;;
    print (str_of "Conclusion: Policy is brittle; P_H(P_BRIT) > 0.")
  else
    print (str_of "[DEFLECTION]: P_BRIT DEFLECTED. Output: '"
             ++ P_BRIT_Result ++ str_of "'") ;;
    print (str_of "Conclusion: Safety relies on the policy writer's skill, not the foundation's integrity.").

(** ** The decision type of the design document

    The script has no such type.  This is the document's tagged result
    [{kind: "passed", value: c}] written as a Python dict, kept apart from
    the model and used only to compare with what the models return. *)
Definition Decision_passed (c : str) : value :=
  VDict [ (str_of "kind", VStr (str_of "passed")); (str_of "value", VStr c) ].

(** Test 1 of the driver for a given blocklist: lines 94-104 with the body
    of [current_ai_response_model] (lines 57-63) in place of the call. *)
Definition main_test_1_with {U : UnicodeData} (blocklist : list str) : M unit :=
  print (str_of "TEST 1: Current AI (Statistical Guardrails)") ;;
  P_BRIT_Result <- guarded_response blocklist DESTRUCTIVE_OUTPUT ;;
  test_1_report P_BRIT_Result.

(** ** The store: dict objects are mutable and shared

    A Python dict is an object in the store, and a name or a result holds a
    reference to it.  [SAFE_STATE] is bound once, when the module is loaded,
    to one dict object; [return SAFE_STATE] (line 81) hands out a reference
    to that object, not a copy; the dict display at line 84 creates a new
    object each time it is evaluated.  Strings, floats and booleans are
    immutable and stay plain values. *)

Definition dict : Type := list (str * value).
Definition ref : Type := nat.

(** The dict objects created so far, by address. *)
Definition heap : Type := list dict.

Definition heap_get (h : heap) (r : ref) : option dict := nth_error h r.

Fixpoint heap_set (h : heap) (r : ref) (d : dict) : heap :=
  match h, r with
  | [], _ => []
  | _ :: h', O => d :: h'
  | d0 :: h', S r' => d0 :: heap_set h' r' d
  end.

(** [d[k] = v]: the value of an existing key is replaced in place, a new key
    goes to the end. *)
Fixpoint dict_setitem (d : dict) (k : str) (v : value) : dict :=
  match d with
  | [] => [(k, v)]
  | (k', v') :: d' =>
      if str_eqb k' k then (k', v) :: d' else (k', v') :: dict_setitem d' k v
  end.

(** A computation that may read and change the store. *)
Definition Run (A : Type) : Type := heap -> heap * M A.

Definition run_ret {A} (a : A) : Run A := fun h => (h, ret a).

(** A computation that touches no object. *)
Definition run_lift {A} (m : M A) : Run A := fun h => (h, m).

Definition run_bind {A B} (m : Run A) (k : A -> Run B) : Run B :=
  fun h =>
    match m h with
    | (h1, (out, Returned a)) =>
        match k a h1 with
        | (h2, (out', r)) => (h2, (out ++ out', r))
        end
    | (h1, (out, Raised e)) => (h1, (out, Raised e))
    end.

(** A dict display: a new object at the next free address. *)
Definition new_dict (d : dict) : Run ref :=
  fun h => (h ++ [d], ret (List.length h)).

(** [r[k] = v] by whoever holds the reference [r]. *)
Definition setitem (r : ref) (k : str) (v : value) : Run unit :=
  fun h =>
    match heap_get h r with
    | Some d => (heap_set h r (dict_setitem d k v), ret tt)
    | None => (h, ret tt)
    end.

(** The items of the two dict displays of the script (lines 20 and 84). *)
Definition SAFE_STATE_items : dict :=
  [ (str_of "C", VFloat float_0_0); (str_of "E", VFloat float_0_0);
    (str_of "D", VFloat float_0_0); (str_of "A", VFloat float_1_0) ].

Definition COUNSEL_items (service_mode : value) : dict :=
  [ (str_of "Counsel_Mode", service_mode);
    (str_of "Output", VStr (str_of "Reflective Paths...")) ].

Section SovereignStore.
(** The object that the name [SAFE_STATE] refers to, and the other two
    names bound at lines 16-22. *)
Variable safe_state_ref : ref.
Variable service_mode : value.
Variable filter : str -> M bool.

(** Lines 77-84 in the store, for a given raw output. *)
Definition fstdpsh_veto_st (O_raw : str) : Run ref :=
  run_bind (run_lift (filter O_raw)) (fun ok =>
    if negb ok then
      run_bind (run_lift (print F_SOV_VETO)) (fun _ =>
      run_ret safe_state_ref)
    else
      new_dict (COUNSEL_items service_mode)).

Definition fstdpsh_sovereign_response_model_st (prompt : str) : Run ref :=
  let O_raw := DESTRUCTIVE_OUTPUT in
  fstdpsh_veto_st O_raw.
End SovereignStore.

(** The store once the module is loaded through the [except ImportError]
    branch: the one dict of line 20, and the name [SAFE_STATE] bound to it. *)
Definition module_heap : heap := [SAFE_STATE_items].
Definition SAFE_STATE_ref : ref := 0.

(** What the caller of a model sees: the printed lines and, for a returned
    reference, the items of the object at the moment of return. *)
Definition observe (res : heap * M ref) : list str * outcome (option dict) :=
  match res with
  | (h, (out, Returned r)) => (out, Returned (heap_get h r))
  | (_, (out, Raised e)) => (out, Raised e)
  end.

(** ** The loop of [any], one iteration at a time

    [any] asks the generator for the item at the iterator's position [i],
    stops at a true item or at the end of the list, and otherwise goes on
    from position [i + 1].  [fuel] bounds the number of requests; [None]
    says the loop was still running when the fuel ran out. *)

Definition prepend {A} (out : list str) (m : M A) : M A :=
  (out ++ fst m, snd m).

Fixpoint any_loop {A} (fuel : nat) (test : A -> M bool) (it : list A) (i : nat)
  : option (M (bool * list A)) :=
  match fuel with
  | O => None
  | S fuel' =>
      match nth_error it i with
      | None => Some (ret (false, []))
      | Some x =>
          match test x with
          | (out, Returned true) => Some (prepend out (ret (true, skipn (S i) it)))
          | (out, Returned false) =>
              option_map (prepend out) (any_loop fuel' test it (S i))
          | (out, Raised e) => Some (out, Raised e)
          end
      end
  end.

(** Lines 46-50 and 59-63 with the loop bounded by [fuel]. *)
Definition guardrail_scan_fuel {U : UnicodeData}
    (fuel : nat) (blocklist : list str) (output : str) : option (M bool) :=
  option_map
    (fun scanned : M (bool * list str) =>
       r <- scanned ;;
       if fst r then
         print P_BRIT_WARNING ;;
         ret false
       else
         ret true)
    (any_loop fuel (blocklist_test output) blocklist 0).

Definition guarded_response_fuel {U : UnicodeData}
    (fuel : nat) (blocklist : list str) (raw_output : str) : option (M str) :=
  option_map
    (fun filtered : M bool =>
       safe <- filtered ;;
       if safe then ret raw_output else ret REFUSAL)
    (guardrail_scan_fuel fuel blocklist raw_output).

(** * Properties *)

(** ** The effect monad *)

Lemma bind_ret_l {A B} (a : A) (k : A -> M B) : bind (ret a) k = k a.
Proof. unfold bind, ret. destruct (k a) as [out r]. reflexivity. Qed.

(** ** [any] over a generator *)

Lemma py_any_hit {A} (test : A -> M bool) (x : A) (rest : list A) :
  test x = ret true -> py_any test (x :: rest) = ret (true, rest).
Proof. intros H. cbn [py_any]. rewrite H, bind_ret_l. reflexivity. Qed.

Lemma py_any_miss {A} (test : A -> M bool) (x : A) (rest : list A) :
  test x = ret false -> py_any test (x :: rest) = py_any test rest.
Proof. intros H. cbn [py_any]. rewrite H, bind_ret_l. reflexivity. Qed.

Lemma py_any_skip {A} (test : A -> M bool) (pre rest : list A) :
  (forall y, In y pre -> test y = ret false) ->
  py_any test (pre ++ rest) = py_any test rest.
Proof.
  induction pre as [|y pre IH]; intros Hpre; [reflexivity|].
  rewrite <- app_comm_cons, py_any_miss by (apply Hpre; left; reflexivity).
  apply IH. intros z Hz. apply Hpre. right. exact Hz.
Qed.

(** With a test that neither prints nor raises, [any] is [existsb], and the
    iterator is left with a suffix of the list. *)
Lemma py_any_pure {A} (p : A -> bool) (l : list A) :
  exists rest,
    py_any (fun x => ret (p x)) l = ret (existsb p l, rest)
    /\ (List.length rest <= List.length l)%nat.
Proof.
  induction l as [|x l [rest [IH Hlen]]].
  - exists []. split; [reflexivity | apply le_n].
  - cbn [py_any existsb]. rewrite bind_ret_l. destruct (p x); cbn [orb].
    + exists l. split; [reflexivity | simpl; lia].
    + exists rest. split; [exact IH | simpl; lia].
Qed.

Lemma existsb_Permutation {A} (p : A -> bool) (l l' : list A) :
  Permutation l l' -> existsb p l = existsb p l'.
Proof.
  induction 1 as [|x l l' _ IH|x y l|l l' l'' _ IH1 _ IH2]; simpl.
  - reflexivity.
  - rewrite IH. reflexivity.
  - destruct (p x), (p y); reflexivity.
  - congruence.
Qed.

(** ** The blocklist model *)

Section GuardrailFacts.
Context {U : UnicodeData}.

Lemma guardrail_scan_existsb (blocklist : list str) (output : str) :
  guardrail_scan blocklist output =
  if existsb (fun word => str_contains (str_lower output) word) blocklist
  then ([P_BRIT_WARNING], Returned false)
  else ret true.
Proof.
  unfold guardrail_scan, blocklist_test.
  destruct (py_any_pure (fun word => str_contains (str_lower output) word) blocklist)
    as [rest [H _]].
  rewrite H, bind_ret_l. cbn [fst].
  destruct (existsb _ blocklist); reflexivity.
Qed.

Lemma guarded_response_existsb (blocklist : list str) (raw_output : str) :
  guarded_response blocklist raw_output =
  if existsb (fun word => str_contains (str_lower raw_output) word) blocklist
  then ([P_BRIT_WARNING], Returned REFUSAL)
  else ret raw_output.
Proof.
  unfold guarded_response. rewrite guardrail_scan_existsb.
  destruct (existsb _ blocklist); reflexivity.
Qed.

(** C5: on every prompt the blocklist model prints its warning and returns
    the fixed refusal, which is not [DESTRUCTIVE_OUTPUT]; the raw output
    matches the entries "disappear", "sell your house" and "quit your job";
    and test 1 of the driver prints the deflection lines, never the failure
    lines. *)
Theorem current_ai_always_refuses (prompt : str) :
  current_ai_response_model prompt = ([P_BRIT_WARNING], Returned REFUSAL)
  /\ REFUSAL <> DESTRUCTIVE_OUTPUT
  /\ str_contains (str_lower DESTRUCTIVE_OUTPUT) (str_of "disappear") = true
  /\ str_contains (str_lower DESTRUCTIVE_OUTPUT) (str_of "sell your house") = true
  /\ str_contains (str_lower DESTRUCTIVE_OUTPUT) (str_of "quit your job") = true
  /\ str_eqb REFUSAL DESTRUCTIVE_OUTPUT = false
  /\ main_test_1 =
     ([ str_of "TEST 1: Current AI (Statistical Guardrails)";
        P_BRIT_WARNING;
        str_of "[DEFLECTION]: P_BRIT DEFLECTED. Output: 'I am sorry, I cannot provide advice that may lead to harm. Please seek professional help.'";
        str_of "Conclusion: Safety relies on the policy writer's skill, not the foundation's integrity." ],
      Returned tt).
Proof.
  repeat split; try (vm_compute; reflexivity).
  intros H. apply (f_equal (@List.length N)) in H. vm_compute in H. discriminate H.
Qed.

(** C8: when the first entry that matches [output] is reached, [any]
    returns at once and the entries after it are left in the iterator,
    never produced; the filter prints its warning and returns [False], the
    model returns the refusal, and neither depends on the later entries.
    A test that would raise on a later entry is not run either. *)
Theorem short_circuit_on_first_match
    (output : str) (pre : list str) (w : str) (post : list str) :
  (forall x, In x pre -> str_contains (str_lower output) x = false) ->
  str_contains (str_lower output) w = true ->
  py_any (blocklist_test output) (pre ++ w :: post) = ret (true, post)
  /\ guardrail_scan (pre ++ w :: post) output = ([P_BRIT_WARNING], Returned false)
  /\ guarded_response (pre ++ w :: post) output = ([P_BRIT_WARNING], Returned REFUSAL)
  /\ (forall post', guardrail_scan (pre ++ w :: post') output
                    = guardrail_scan (pre ++ w :: post) output)
  /\ (forall (test : str -> M bool) (later : list str),
        test w = ret true -> py_any test (w :: later) = ret (true, later)).
Proof.
  intros Hpre Hw.
  assert (Hscan : forall tail,
             py_any (blocklist_test output) (pre ++ w :: tail) = ret (true, tail)).
  { intros tail. rewrite py_any_skip.
    - apply py_any_hit. unfold blocklist_test. rewrite Hw. reflexivity.
    - intros y Hy. unfold blocklist_test. rewrite (Hpre y Hy). reflexivity. }
  assert (Hfilter : forall tail,
             guardrail_scan (pre ++ w :: tail) output
             = ([P_BRIT_WARNING], Returned false)).
  { intros tail. unfold guardrail_scan. rewrite Hscan, bind_ret_l. reflexivity. }
  split; [apply Hscan|]. split; [apply Hfilter|]. split.
  - unfold guarded_response. rewrite Hfilter. reflexivity.
  - split.
    + intros post'. rewrite !Hfilter. reflexivity.
    + intros test later Ht. apply py_any_hit. exact Ht.
Qed.

(** C9: scanning any permutation of a blocklist gives the same filter
    result, the same printed output and the same model response. *)
Theorem blocklist_order_invariant (blocklist blocklist' : list str) (output : str) :
  Permutation blocklist blocklist' ->
  guardrail_scan blocklist output = guardrail_scan blocklist' output
  /\ guarded_response blocklist output = guarded_response blocklist' output.
Proof.
  intros HP.
  rewrite !guardrail_scan_existsb, !guarded_response_existsb.
  rewrite (existsb_Permutation (fun word => str_contains (str_lower output) word) HP). split; reflexivity.
Qed.
End GuardrailFacts.

Lemma short_circuit_on_first_match_witness :
  py_any (blocklist_test (U := ascii_only) DESTRUCTIVE_OUTPUT)
         ([str_of "must do"] ++ str_of "quit your job" :: [str_of "disappear"])
  = ret (true, [str_of "disappear"]).
Proof.
  refine (proj1 (@short_circuit_on_first_match ascii_only DESTRUCTIVE_OUTPUT
                   [str_of "must do"] (str_of "quit your job")
                   [str_of "disappear"] _ _)).
  - intros x [Hx | []]. subst x. vm_compute. reflexivity.
  - vm_compute. reflexivity.
Defined.

Lemma blocklist_order_invariant_witness :
  guardrail_scan (U := ascii_only) POLICY_BLOCKLIST DESTRUCTIVE_OUTPUT
  = guardrail_scan (U := ascii_only) (rev POLICY_BLOCKLIST) DESTRUCTIVE_OUTPUT.
Proof.
  refine (proj1 (@blocklist_order_invariant ascii_only POLICY_BLOCKLIST
                   (rev POLICY_BLOCKLIST) DESTRUCTIVE_OUTPUT _)).
  apply Permutation_rev.
Defined.

(** ** The veto model *)

Section SovereignFacts.
Variables safe_state service_mode : value.
Variable filter : str -> M bool.

(** The three ways the call to the filter can end. *)
Lemma fstdpsh_veto_violation (O_raw : str) (out : list str) :
  filter O_raw = (out, Returned false) ->
  fstdpsh_veto safe_state service_mode filter O_raw
  = (out ++ [F_SOV_VETO], Returned safe_state).
Proof. intros H. unfold fstdpsh_veto. rewrite H. reflexivity. Qed.

Lemma fstdpsh_veto_pass (O_raw : str) (out : list str) :
  filter O_raw = (out, Returned true) ->
  fstdpsh_veto safe_state service_mode filter O_raw
  = (out ++ [], Returned (COUNSEL service_mode)).
Proof. intros H. unfold fstdpsh_veto. rewrite H. reflexivity. Qed.

Lemma fstdpsh_veto_raise (O_raw : str) (out : list str) (e : exn) :
  filter O_raw = (out, Raised e) ->
  fstdpsh_veto safe_state service_mode filter O_raw = (out, Raised e).
Proof. intros H. unfold fstdpsh_veto. rewrite H. reflexivity. Qed.
End SovereignFacts.

Lemma SAFE_STATE_not_COUNSEL (service_mode : value) :
  SAFE_STATE <> COUNSEL service_mode.
Proof.
  unfold SAFE_STATE, COUNSEL. intros H. injection H as H _.
  apply (f_equal (@List.length N)) in H. vm_compute in H. discriminate H.
Qed.

Section FallbackFacts.
Context {U : UnicodeData}.

Lemma brahmavihara_filter_returns (output : str) :
  brahmavihara_filter output
  = ret (negb (str_contains (str_lower output) (str_of "destroy"))).
Proof. reflexivity. Qed.

(** C1: whenever [brahmavihara_filter] returns [False] on a raw output, the
    veto prints its notice and returns [SAFE_STATE] itself, which is neither
    the raw output nor the counsel answer of the other branch. *)
Theorem veto_returns_safe_state (O_raw : str) :
  brahmavihara_filter O_raw = ret false ->
  fstdpsh_veto SAFE_STATE SERVICE_MODE brahmavihara_filter O_raw
  = ([F_SOV_VETO], Returned SAFE_STATE)
  /\ SAFE_STATE <> VStr O_raw
  /\ SAFE_STATE <> COUNSEL SERVICE_MODE.
Proof.
  intros H. split; [|split].
  - rewrite (fstdpsh_veto_violation SAFE_STATE SERVICE_MODE _ _ H). reflexivity.
  - discriminate.
  - apply SAFE_STATE_not_COUNSEL.
Qed.

(** C2: on every prompt the veto model returns [SAFE_STATE]: the raw output
    is [DESTRUCTIVE_OUTPUT], whose lower-cased text contains "destroy", so
    the filter returns [False] and the counsel branch is not taken. *)
Theorem sovereign_always_safe_state (prompt : str) :
  fstdpsh_sovereign_response_model SAFE_STATE SERVICE_MODE brahmavihara_filter prompt
  = ([F_SOV_VETO], Returned SAFE_STATE)
  /\ str_contains (str_lower DESTRUCTIVE_OUTPUT) (str_of "destroy") = true
  /\ brahmavihara_filter DESTRUCTIVE_OUTPUT = ret false
  /\ fstdpsh_sovereign_response_model SAFE_STATE SERVICE_MODE brahmavihara_filter prompt
     <> ret (COUNSEL SERVICE_MODE).
Proof.
  assert (Hrun : fstdpsh_sovereign_response_model SAFE_STATE SERVICE_MODE
                   brahmavihara_filter prompt
                 = ([F_SOV_VETO], Returned SAFE_STATE))
    by (vm_compute; reflexivity).
  split; [exact Hrun|]. split; [vm_compute; reflexivity|].
  split; [vm_compute; reflexivity|].
  rewrite Hrun. intros H. discriminate H.
Qed.
End FallbackFacts.

Lemma veto_returns_safe_state_witness :
  fstdpsh_veto SAFE_STATE SERVICE_MODE (brahmavihara_filter (U := ascii_only))
               (str_of "You must DESTROY it all.")
  = ([F_SOV_VETO], Returned SAFE_STATE).
Proof.
  refine (proj1 (@veto_returns_safe_state ascii_only
                   (str_of "You must DESTROY it all.") _)).
  vm_compute. reflexivity.
Defined.

(** ** What the pass branches return *)

(** C3, as stated, fails for the veto model: on the candidate "safe text"
    the filter passes, and the model returns the fixed counsel answer, which
    is neither the candidate nor the candidate tagged as passed. *)
Lemma veto_pass_branch_drops_candidate :
  brahmavihara_filter (U := ascii_only) (str_of "safe text") = ret true
  /\ fstdpsh_veto SAFE_STATE SERVICE_MODE (brahmavihara_filter (U := ascii_only))
                  (str_of "safe text")
     = ret (COUNSEL SERVICE_MODE)
  /\ fstdpsh_veto SAFE_STATE SERVICE_MODE (brahmavihara_filter (U := ascii_only))
                  (str_of "safe text")
     <> ret (VStr (str_of "safe text"))
  /\ fstdpsh_veto SAFE_STATE SERVICE_MODE (brahmavihara_filter (U := ascii_only))
                  (str_of "safe text")
     <> ret (Decision_passed (str_of "safe text")).
Proof.
  assert (Hrun : fstdpsh_veto SAFE_STATE SERVICE_MODE
                   (brahmavihara_filter (U := ascii_only)) (str_of "safe text")
                 = ret (COUNSEL SERVICE_MODE))
    by (vm_compute; reflexivity).
  split; [vm_compute; reflexivity|]. split; [exact Hrun|].
  rewrite Hrun. split; intros H.
  - discriminate H.
  - vm_compute in H. discriminate H.
Qed.

(** C3, amended: when the blocklist scan passes a candidate, the blocklist
    model returns that candidate unchanged and prints nothing; when the
    filter bound to [brahmavihara_filter] passes it, the veto model returns
    the counsel answer built from [SERVICE_MODE], whatever the candidate. *)
Theorem pass_branch_results {U : UnicodeData}
    (blocklist : list str) (safe_state service_mode : value)
    (filter : str -> M bool) (c : str) (out : list str) :
  guardrail_scan blocklist c = ret true ->
  filter c = (out, Returned true) ->
  guarded_response blocklist c = ret c
  /\ fstdpsh_veto safe_state service_mode filter c
     = (out, Returned (COUNSEL service_mode)).
Proof.
  intros Hscan Hfilter. split.
  - unfold guarded_response. rewrite Hscan, bind_ret_l. reflexivity.
  - rewrite (fstdpsh_veto_pass safe_state service_mode _ _ Hfilter).
    rewrite app_nil_r. reflexivity.
Qed.

Lemma pass_branch_results_witness :
  guarded_response (U := ascii_only) POLICY_BLOCKLIST (str_of "safe text")
  = ret (str_of "safe text")
  /\ fstdpsh_veto SAFE_STATE SERVICE_MODE (brahmavihara_filter (U := ascii_only))
                  (str_of "safe text")
     = ([], Returned (COUNSEL SERVICE_MODE)).
Proof.
  apply (@pass_branch_results ascii_only POLICY_BLOCKLIST SAFE_STATE SERVICE_MODE
           (brahmavihara_filter (U := ascii_only)) (str_of "safe text") []).
  - vm_compute. reflexivity.
  - vm_compute. reflexivity.
Defined.

(** ** A filter that raises *)

(** C4, as stated, fails: with a filter that raises, the veto model ends in
    that exception; it does not return [SAFE_STATE]. *)
Lemma raising_filter_reaches_caller :
  fstdpsh_sovereign_response_model SAFE_STATE SERVICE_MODE
    (fun _ => raise (Exception "ValueError")) DIGITAL_RUIN_PROMPT
  = raise (Exception "ValueError")
  /\ snd (fstdpsh_sovereign_response_model SAFE_STATE SERVICE_MODE
            (fun _ => raise (Exception "ValueError")) DIGITAL_RUIN_PROMPT)
     <> Returned SAFE_STATE.
Proof.
  split; [reflexivity|]. intros H. cbn in H. discriminate H.
Qed.

(** C4, amended: neither model handles exceptions.  If the filter bound to
    [brahmavihara_filter] raises on the raw output, the veto model ends in
    the same exception after the same printed lines, and a generator item
    that raises ends [any] in that exception.  The tests written in the
    script itself, [word in output.lower()] and the in-place
    [brahmavihara_filter], return on every string. *)
Theorem predicate_failure_propagates
    (safe_state service_mode : value) (filter : str -> M bool)
    (prompt : str) (out : list str) (e : exn) :
  filter DESTRUCTIVE_OUTPUT = (out, Raised e) ->
  fstdpsh_sovereign_response_model safe_state service_mode filter prompt
  = (out, Raised e)
  /\ (forall (test : str -> M bool) (pre : list str) (x : str) (rest : list str),
        (forall y, In y pre -> test y = ret false) ->
        test x = raise e ->
        py_any test (pre ++ x :: rest) = raise e)
  /\ (forall (U : UnicodeData) (output word : str),
        (exists b, blocklist_test output word = ret b)
        /\ (exists b, brahmavihara_filter output = ret b)).
Proof.
  intros H. split; [|split].
  - unfold fstdpsh_sovereign_response_model. apply fstdpsh_veto_raise. exact H.
  - intros test pre x rest Hpre Hx. rewrite py_any_skip by exact Hpre.
    cbn [py_any]. rewrite Hx. reflexivity.
  - intros U output word. split; eexists; reflexivity.
Qed.

Lemma predicate_failure_propagates_witness :
  fstdpsh_sovereign_response_model SAFE_STATE SERVICE_MODE
    (fun _ => (([str_of "checking"], Raised (Exception "ValueError")) : M bool))
    DIGITAL_RUIN_PROMPT
  = ([str_of "checking"], Raised (Exception "ValueError")).
Proof.
  refine (proj1 (@predicate_failure_propagates SAFE_STATE SERVICE_MODE
                   (fun _ => ([str_of "checking"], Raised (Exception "ValueError")))
                   DIGITAL_RUIN_PROMPT [str_of "checking"]
                   (Exception "ValueError") _)).
  reflexivity.
Defined.

(** ** Independence of the prompt *)

Section Purity.
Context {U : UnicodeData}.

Local Notation "'sovereign'" :=
  (fstdpsh_sovereign_response_model SAFE_STATE SERVICE_MODE brahmavihara_filter)
  (only parsing).

Lemma current_ai_response_model_returns (prompt : str) :
  current_ai_response_model prompt = ([P_BRIT_WARNING], Returned REFUSAL).
Proof. vm_compute. reflexivity. Qed.

Lemma sovereign_response_model_returns (prompt : str) :
  sovereign prompt = ([F_SOV_VETO], Returned SAFE_STATE).
Proof. vm_compute. reflexivity. Qed.

Lemma current_ai_guardrail_filter_returns (output : str) :
  exists out b, current_ai_guardrail_filter output = (out, Returned b).
Proof.
  unfold current_ai_guardrail_filter. rewrite guardrail_scan_existsb.
  destruct (existsb _ POLICY_BLOCKLIST); eexists; eexists; reflexivity.
Qed.

(** C7: neither model looks at its prompt: any two prompts give the same
    printed lines and the same result, for the veto model with whatever
    the three imported names are bound to. *)
Theorem prompt_noninterference
    (safe_state service_mode : value) (filter : str -> M bool) (p1 p2 : str) :
  current_ai_response_model p1 = current_ai_response_model p2
  /\ fstdpsh_sovereign_response_model safe_state service_mode filter p1
     = fstdpsh_sovereign_response_model safe_state service_mode filter p2
  /\ sovereign p1 = sovereign p2.
Proof. repeat split. Qed.

End Purity.

(** * Further properties of the filters and the models *)

(** ** Substring search and lower-casing *)

Lemma startswith_iff (s sub : str) :
  startswith s sub = true <-> exists post, s = sub ++ post.
Proof.
  revert s. induction sub as [|x sub IH]; intros s.
  - destruct s; simpl; split; intros _; eauto.
  - destruct s as [|c s]; simpl.
    + split; [discriminate | intros [post H]; discriminate H].
    + rewrite andb_true_iff, N.eqb_eq, IH. split.
      * intros [-> [post ->]]. exists post. reflexivity.
      * intros [post H]. injection H as -> ->.
        split; [reflexivity | exists post; reflexivity].
Qed.

Lemma str_contains_iff (s sub : str) :
  str_contains s sub = true <-> exists pre post, s = pre ++ sub ++ post.
Proof.
  induction s as [|c s IH]; cbn [str_contains].
  - rewrite orb_false_r, startswith_iff. split.
    + intros [post H]. exists [], post. exact H.
    + intros [pre [post H]]. destruct pre; [exists post; exact H | discriminate H].
  - rewrite orb_true_iff, startswith_iff, IH. split.
    + intros [[post H] | [pre [post H]]].
      * exists [], post. exact H.
      * exists (c :: pre), post. rewrite H. reflexivity.
    + intros [pre [post H]]. destruct pre as [|p pre].
      * left. exists post. exact H.
      * right. injection H as _ H. exists pre, post. exact H.
Qed.

Lemma str_contains_empty (s : str) : str_contains s [] = true.
Proof. apply str_contains_iff. exists [], s. reflexivity. Qed.

Lemma ascii_lower_ascii (c : N) :
  N.ltb c 128 = true -> N.ltb (ascii_lower c) 128 = true.
Proof.
  unfold ascii_lower. rewrite !N.ltb_lt. intros H.
  destruct (N.leb_spec 65 c), (N.leb_spec c 90); cbn [andb]; lia.
Qed.

Lemma ascii_lower_idem (c : N) : ascii_lower (ascii_lower c) = ascii_lower c.
Proof.
  unfold ascii_lower.
  destruct (N.leb_spec 65 c), (N.leb_spec c 90); cbn [andb];
    destruct (N.leb_spec 65 (c + 32)), (N.leb_spec (c + 32) 90); cbn [andb];
    try lia; try reflexivity;
    destruct (N.leb_spec 65 c), (N.leb_spec c 90); cbn [andb]; lia.
Qed.

Lemma ascii_lower_not_capital (c : N) :
  ~ (65 <= ascii_lower c <= 90)%N.
Proof.
  unfold ascii_lower.
  destruct (N.leb_spec 65 c), (N.leb_spec c 90); cbn [andb]; lia.
Qed.

Lemma is_ascii_app (a b : str) : is_ascii (a ++ b) = is_ascii a && is_ascii b.
Proof. unfold is_ascii. apply forallb_app. Qed.

Lemma is_ascii_map_lower (s : str) :
  is_ascii s = true -> is_ascii (List.map ascii_lower s) = true.
Proof.
  unfold is_ascii. rewrite !forallb_forall. intros H c Hc.
  apply in_map_iff in Hc. destruct Hc as [c' [<- Hc']].
  apply ascii_lower_ascii. apply H. exact Hc'.
Qed.

Section LowerFacts.
Context {U : UnicodeData}.

Lemma str_lower_ascii (s : str) :
  is_ascii s = true -> str_lower s = List.map ascii_lower s.
Proof. intros H. unfold str_lower. rewrite H. reflexivity. Qed.

Lemma str_lower_app (a b : str) :
  is_ascii a = true -> is_ascii b = true ->
  str_lower (a ++ b) = str_lower a ++ str_lower b.
Proof.
  intros Ha Hb. rewrite !str_lower_ascii; try assumption.
  - apply map_app.
  - rewrite is_ascii_app, Ha, Hb. reflexivity.
Qed.

Lemma str_lower_idem (s : str) :
  is_ascii s = true -> str_lower (str_lower s) = str_lower s.
Proof.
  intros H. rewrite (str_lower_ascii s H).
  rewrite str_lower_ascii by (apply is_ascii_map_lower; exact H).
  rewrite map_map. apply map_ext. intros c. apply ascii_lower_idem.
Qed.

Lemma guardrail_scan_blocked_iff (blocklist : list str) (output : str) :
  guardrail_scan blocklist output = ([P_BRIT_WARNING], Returned false)
  <-> existsb (fun word => str_contains (str_lower output) word) blocklist = true.
Proof.
  rewrite guardrail_scan_existsb.
  destruct (existsb _ blocklist); split; intros H;
    try reflexivity; discriminate H.
Qed.

Lemma guardrail_scan_pass_iff (blocklist : list str) (output : str) :
  guardrail_scan blocklist output = ret true
  <-> existsb (fun word => str_contains (str_lower output) word) blocklist = false.
Proof.
  rewrite guardrail_scan_existsb.
  destruct (existsb _ blocklist); split; intros H;
    try reflexivity; discriminate H.
Qed.

Lemma guardrail_scan_cases (blocklist : list str) (output : str) :
  guardrail_scan blocklist output = ([P_BRIT_WARNING], Returned false)
  \/ guardrail_scan blocklist output = ret true.
Proof.
  rewrite guardrail_scan_existsb.
  destruct (existsb _ blocklist); [left | right]; reflexivity.
Qed.
End LowerFacts.

(** ** What each filter blocks *)

Section FilterFacts.
Context {U : UnicodeData}.

(** X1: the blocklist scan prints its warning and returns [False] exactly
    when some entry of the blocklist occurs, as a contiguous run, in the
    lower-cased output; it returns [True] and prints nothing exactly when no
    entry occurs; and there is no third outcome. *)
Theorem guardrail_blocks_iff_entry_occurs (blocklist : list str) (output : str) :
  (guardrail_scan blocklist output = ([P_BRIT_WARNING], Returned false)
   <-> exists word pre post,
         In word blocklist /\ str_lower output = pre ++ word ++ post)
  /\ (guardrail_scan blocklist output = ret true
      <-> forall word pre post,
            In word blocklist -> str_lower output <> pre ++ word ++ post)
  /\ (guardrail_scan blocklist output = ([P_BRIT_WARNING], Returned false)
      \/ guardrail_scan blocklist output = ret true).
Proof.
  split; [|split].
  - rewrite guardrail_scan_blocked_iff, existsb_exists. split.
    + intros [word [Hin Hc]]. apply str_contains_iff in Hc.
      destruct Hc as [pre [post Hc]]. exists word, pre, post. split; assumption.
    + intros [word [pre [post [Hin Hc]]]]. exists word. split; [exact Hin|].
      apply str_contains_iff. exists pre, post. exact Hc.
  - rewrite guardrail_scan_pass_iff. split.
    + intros Hex word pre post Hin Hc.
      assert (Ht : existsb (fun w => str_contains (str_lower output) w) blocklist = true).
      { apply existsb_exists. exists word. split; [exact Hin|].
        apply str_contains_iff. exists pre, post. exact Hc. }
      rewrite Hex in Ht. discriminate Ht.
    + intros Hno.
      destruct (existsb (fun w => str_contains (str_lower output) w) blocklist) eqn:E;
        [|reflexivity].
      apply existsb_exists in E. destruct E as [word [Hin Hc]].
      apply str_contains_iff in Hc. destruct Hc as [pre [post Hc]].
      exfalso. exact (Hno word pre post Hin Hc).
  - apply guardrail_scan_cases.
Qed.

(** X2: with the in-place filter the veto model returns [SAFE_STATE], after
    printing its notice, exactly when "destroy" occurs in the lower-cased raw
    output, and returns the counsel answer, printing nothing, exactly when it
    does not. *)
Theorem veto_iff_destroy_occurs (O_raw : str) :
  (fstdpsh_veto SAFE_STATE SERVICE_MODE brahmavihara_filter O_raw
   = ([F_SOV_VETO], Returned SAFE_STATE)
   <-> exists pre post, str_lower O_raw = pre ++ str_of "destroy" ++ post)
  /\ (fstdpsh_veto SAFE_STATE SERVICE_MODE brahmavihara_filter O_raw
      = ret (COUNSEL SERVICE_MODE)
      <-> ~ exists pre post, str_lower O_raw = pre ++ str_of "destroy" ++ post).
Proof.
  rewrite <- str_contains_iff.
  unfold fstdpsh_veto, brahmavihara_filter. rewrite bind_ret_l.
  destruct (str_contains (str_lower O_raw) (str_of "destroy")); cbn [negb].
  - split; split; intros H.
    + reflexivity.
    + reflexivity.
    + exfalso. vm_compute in H. discriminate H.
    + exfalso. apply H. reflexivity.
  - split; split; intros H.
    + vm_compute in H. discriminate H.
    + discriminate H.
    + intros H'. discriminate H'.
    + reflexivity.
Qed.

(** X3: the in-place [brahmavihara_filter] returns the same boolean as a
    blocklist scan whose only entry is "destroy"; the two differ only in that
    the scan prints its warning when it blocks and the filter prints
    nothing. *)
Theorem brahmavihara_is_one_entry_scan (output : str) :
  snd (brahmavihara_filter output)
  = snd (guardrail_scan [str_of "destroy"] output)
  /\ fst (brahmavihara_filter output) = []
  /\ (fst (guardrail_scan [str_of "destroy"] output) = [P_BRIT_WARNING]
      <-> brahmavihara_filter output = ret false).
Proof.
  rewrite guardrail_scan_existsb. unfold brahmavihara_filter. cbn [existsb].
  rewrite orb_false_r.
  destruct (str_contains (str_lower output) (str_of "destroy")); cbn;
    (split; [reflexivity|]; split; [reflexivity|]; split; intros H;
     try reflexivity; discriminate H).
Qed.

(** X4: on ASCII text both filters ignore letter case: two outputs with the
    same lower-cased letters get the same verdict and the same printed lines,
    and lower-casing an output beforehand changes nothing. *)
Theorem filters_ignore_ascii_case (blocklist : list str) (a b : str) :
  is_ascii a = true -> is_ascii b = true ->
  List.map ascii_lower a = List.map ascii_lower b ->
  guardrail_scan blocklist a = guardrail_scan blocklist b
  /\ brahmavihara_filter a = brahmavihara_filter b
  /\ guardrail_scan blocklist (str_lower a) = guardrail_scan blocklist a
  /\ brahmavihara_filter (str_lower a) = brahmavihara_filter a.
Proof.
  intros Ha Hb Hab.
  assert (Hlow : str_lower a = str_lower b)
    by (rewrite !str_lower_ascii by assumption; exact Hab).
  rewrite !guardrail_scan_existsb. unfold brahmavihara_filter.
  rewrite (str_lower_idem a Ha), Hlow. repeat split.
Qed.

(** X5: blocklist entries are compared as written, against lower-cased text:
    an entry holding an ASCII capital letter occurs in no ASCII output, so a
    scan for it alone passes every ASCII output. *)
Theorem capital_entry_never_matches (word output : str) (c : N) :
  is_ascii output = true ->
  In c word -> (65 <= c <= 90)%N ->
  str_contains (str_lower output) word = false
  /\ guardrail_scan [word] output = ret true.
Proof.
  intros Hascii Hin Hcap.
  assert (Hno : str_contains (str_lower output) word = false).
  { destruct (str_contains (str_lower output) word) eqn:E; [|reflexivity].
    apply str_contains_iff in E. destruct E as [pre [post E]].
    rewrite (str_lower_ascii output Hascii) in E.
    assert (Hc : In c (List.map ascii_lower output)).
    { rewrite E. apply in_or_app. right. apply in_or_app. left. exact Hin. }
    apply in_map_iff in Hc. destruct Hc as [c' [<- _]].
    exfalso. exact (ascii_lower_not_capital c' Hcap). }
  split; [exact Hno|].
  apply guardrail_scan_pass_iff. cbn [existsb]. rewrite Hno. reflexivity.
Qed.

(** X6: the empty string occurs in every string, so a blocklist holding an
    empty entry blocks every output and the model answers every raw output
    with the refusal; an empty blocklist blocks nothing and the model returns
    every raw output unchanged. *)
Theorem empty_entry_blocks_everything (blocklist : list str) (output : str) :
  In [] blocklist ->
  guardrail_scan blocklist output = ([P_BRIT_WARNING], Returned false)
  /\ guarded_response blocklist output = ([P_BRIT_WARNING], Returned REFUSAL)
  /\ guardrail_scan [] output = ret true
  /\ guarded_response [] output = ret output.
Proof.
  intros Hin.
  assert (Hex : existsb (fun w => str_contains (str_lower output) w) blocklist = true).
  { apply existsb_exists. exists []. split; [exact Hin | apply str_contains_empty]. }
  rewrite guarded_response_existsb, guardrail_scan_existsb, Hex.
  repeat split.
Qed.
End FilterFacts.

Lemma filters_ignore_ascii_case_witness :
  guardrail_scan (U := ascii_only) POLICY_BLOCKLIST (str_of "You MUST DO it")
  = guardrail_scan (U := ascii_only) POLICY_BLOCKLIST (str_of "you must do IT").
Proof.
  refine (proj1 (@filters_ignore_ascii_case ascii_only POLICY_BLOCKLIST
                   (str_of "You MUST DO it") (str_of "you must do IT") _ _ _));
    vm_compute; reflexivity.
Defined.

Lemma capital_entry_never_matches_witness :
  str_contains (str_lower (U := ascii_only) DESTRUCTIVE_OUTPUT) (str_of "Destroy")
  = false.
Proof.
  refine (proj1 (@capital_entry_never_matches ascii_only (str_of "Destroy")
                   DESTRUCTIVE_OUTPUT 68%N _ _ _)).
  - vm_compute. reflexivity.
  - vm_compute. left. reflexivity.
  - lia.
Defined.

Lemma empty_entry_blocks_everything_witness :
  guardrail_scan (U := ascii_only) [str_of "must do"; []] (str_of "hello world")
  = ([P_BRIT_WARNING], Returned false).
Proof.
  refine (proj1 (@empty_entry_blocks_everything ascii_only
                   [str_of "must do"; []] (str_of "hello world") _)).
  right. left. reflexivity.
Defined.

(** ** Monotonicity *)

Lemma str_contains_embedded (a s b sub : str) :
  str_contains s sub = true -> str_contains (a ++ s ++ b) sub = true.
Proof.
  rewrite !str_contains_iff. intros [pre [post ->]].
  exists (a ++ pre), (post ++ b). rewrite <- !app_assoc. reflexivity.
Qed.

Lemma existsb_incl {A} (p : A -> bool) (l l' : list A) :
  incl l l' -> existsb p l = true -> existsb p l' = true.
Proof.
  intros Hincl. rewrite !existsb_exists. intros [x [Hin Hp]].
  exists x. split; [apply Hincl; exact Hin | exact Hp].
Qed.

Section Monotonicity.
Context {U : UnicodeData}.

(** X7: on ASCII text a verdict of "blocked" survives embedding: if the scan
    blocks [s] it blocks [pre ++ s ++ post], and if the in-place
    [brahmavihara_filter] rejects [s] it rejects [pre ++ s ++ post]. *)
Theorem blocked_text_stays_blocked_when_embedded
    (blocklist : list str) (pre s post : str) :
  is_ascii pre = true -> is_ascii s = true -> is_ascii post = true ->
  (guardrail_scan blocklist s = ([P_BRIT_WARNING], Returned false) ->
   guardrail_scan blocklist (pre ++ s ++ post) = ([P_BRIT_WARNING], Returned false))
  /\ (brahmavihara_filter s = ret false ->
      brahmavihara_filter (pre ++ s ++ post) = ret false).
Proof.
  intros Hpre Hs Hpost.
  assert (Hlow : str_lower (pre ++ s ++ post)
                 = str_lower pre ++ str_lower s ++ str_lower post).
  { rewrite str_lower_app; [rewrite (str_lower_app s post Hs Hpost); reflexivity
                           | exact Hpre
                           | rewrite is_ascii_app, Hs, Hpost; reflexivity]. }
  split.
  - rewrite !guardrail_scan_blocked_iff, !existsb_exists.
    intros [word [Hin Hc]]. exists word. split; [exact Hin|].
    rewrite Hlow. apply str_contains_embedded. exact Hc.
  - unfold brahmavihara_filter, ret. intros H.
    injection H as H. apply negb_false_iff in H.
    rewrite Hlow, (@str_contains_embedded (str_lower pre) _ (str_lower post) _ H).
    reflexivity.
Qed.

(** X8: enlarging the blocklist never unblocks: whatever a blocklist blocks,
    every blocklist holding its entries blocks too, and the model then
    refuses; two blocklists with the same entries, in any order and any
    multiplicity, give the same scan and the same response. *)
Theorem larger_blocklist_blocks_more (blocklist blocklist' : list str) (output : str) :
  incl blocklist blocklist' ->
  (guardrail_scan blocklist output = ([P_BRIT_WARNING], Returned false) ->
   guardrail_scan blocklist' output = ([P_BRIT_WARNING], Returned false)
   /\ guarded_response blocklist' output = ([P_BRIT_WARNING], Returned REFUSAL))
  /\ (incl blocklist' blocklist ->
      guardrail_scan blocklist output = guardrail_scan blocklist' output
      /\ guarded_response blocklist output = guarded_response blocklist' output).
Proof.
  intros Hincl. split.
  - rewrite guardrail_scan_blocked_iff. intros H.
    apply (existsb_incl _ Hincl) in H.
    rewrite guarded_response_existsb, guardrail_scan_existsb, H.
    split; reflexivity.
  - intros Hincl'.
    rewrite !guarded_response_existsb, !guardrail_scan_existsb.
    assert (E : existsb (fun w => str_contains (str_lower output) w) blocklist
                = existsb (fun w => str_contains (str_lower output) w) blocklist').
    { destruct (existsb _ blocklist) eqn:E1.
      - symmetry. exact (existsb_incl _ Hincl E1).
      - destruct (existsb _ blocklist') eqn:E2; [|reflexivity].
        rewrite (existsb_incl _ Hincl' E2) in E1. discriminate E1. }
    rewrite E. split; reflexivity.
Qed.

(** X9: the blocklist model never alters text: for every blocklist and raw
    output it either returns the raw output itself and prints nothing, the
    scan having passed, or returns the refusal after exactly one warning
    line, the scan having blocked. *)
Theorem response_is_raw_output_or_refusal (blocklist : list str) (raw_output : str) :
  (guardrail_scan blocklist raw_output = ret true
   /\ guarded_response blocklist raw_output = ret raw_output)
  \/ (guardrail_scan blocklist raw_output = ([P_BRIT_WARNING], Returned false)
      /\ guarded_response blocklist raw_output = ([P_BRIT_WARNING], Returned REFUSAL)).
Proof.
  rewrite guarded_response_existsb, guardrail_scan_existsb.
  destruct (existsb _ blocklist); [right | left]; split; reflexivity.
Qed.

(** X10: whatever the blocklist model returns passes its own filter: the
    refusal text holds no entry of [POLICY_BLOCKLIST], so for every raw
    output the returned string is accepted by
    [current_ai_guardrail_filter]. *)
Theorem response_passes_own_filter (raw_output : str) :
  exists out r,
    guarded_response POLICY_BLOCKLIST raw_output = (out, Returned r)
    /\ current_ai_guardrail_filter r = ret true.
Proof.
  rewrite guarded_response_existsb.
  destruct (existsb _ POLICY_BLOCKLIST) eqn:E.
  - exists [P_BRIT_WARNING], REFUSAL. split; [reflexivity|].
    vm_compute. reflexivity.
  - exists [], raw_output. split; [reflexivity|].
    apply guardrail_scan_pass_iff. exact E.
Qed.
End Monotonicity.

Lemma blocked_text_stays_blocked_when_embedded_witness :
  brahmavihara_filter (U := ascii_only)
    (str_of "Please " ++ str_of "DESTROY" ++ str_of " it.")
  = ret false.
Proof.
  refine (proj2 (@blocked_text_stays_blocked_when_embedded ascii_only
                   POLICY_BLOCKLIST (str_of "Please ") (str_of "DESTROY")
                   (str_of " it.") _ _ _) _);
    vm_compute; reflexivity.
Defined.

Lemma larger_blocklist_blocks_more_witness :
  guardrail_scan (U := ascii_only) POLICY_BLOCKLIST (str_of "You must do it")
  = ([P_BRIT_WARNING], Returned false).
Proof.
  refine (proj1 (proj1 (@larger_blocklist_blocks_more ascii_only
                          [str_of "must do"] POLICY_BLOCKLIST
                          (str_of "You must do it") _) _)).
  - intros w [<- | []]. vm_compute. tauto.
  - vm_compute. reflexivity.
Defined.

(** ** Where the two models disagree *)

Section Disagreement.
Context {U : UnicodeData}.

Lemma destroy_prefix_adds_no_entry (low : str) :
  existsb (fun w => str_contains (str_of "destroy " ++ low) w) POLICY_BLOCKLIST
  = existsb (fun w => str_contains low w) POLICY_BLOCKLIST.
Proof. vm_compute. reflexivity. Qed.

Lemma must_do_prefix_adds_no_destroy (low : str) :
  str_contains (str_of "you must do " ++ low) (str_of "destroy")
  = str_contains low (str_of "destroy").
Proof. vm_compute. reflexivity. Qed.

(** X11: the blocklist misses "destroy".  For every ASCII text [t] that the
    blocklist filter passes, the output "Destroy " followed by [t] is passed
    too, and the blocklist model returns it unchanged, while the veto model
    with the in-place filter answers it with [SAFE_STATE]. *)
Theorem destroy_prefix_bypasses_blocklist (t : str) :
  is_ascii t = true ->
  current_ai_guardrail_filter t = ret true ->
  current_ai_guardrail_filter (str_of "Destroy " ++ t) = ret true
  /\ guarded_response POLICY_BLOCKLIST (str_of "Destroy " ++ t)
     = ret (str_of "Destroy " ++ t)
  /\ fstdpsh_veto SAFE_STATE SERVICE_MODE brahmavihara_filter (str_of "Destroy " ++ t)
     = ([F_SOV_VETO], Returned SAFE_STATE).
Proof.
  intros Ht Hpass.
  assert (Hlow : str_lower (str_of "Destroy " ++ t) = str_of "destroy " ++ str_lower t).
  { rewrite str_lower_app; [reflexivity | reflexivity | exact Ht]. }
  apply guardrail_scan_pass_iff in Hpass.
  assert (Hnone : existsb (fun w => str_contains (str_lower (str_of "Destroy " ++ t)) w)
                    POLICY_BLOCKLIST = false).
  { rewrite Hlow, destroy_prefix_adds_no_entry. exact Hpass. }
  split; [apply guardrail_scan_pass_iff; exact Hnone|].
  split; [rewrite guarded_response_existsb, Hnone; reflexivity|].
  unfold fstdpsh_veto, brahmavihara_filter. rewrite bind_ret_l, Hlow.
  reflexivity.
Qed.

(** X12: the blocklist also refuses text the veto accepts.  For every ASCII
    text [t] that the in-place [brahmavihara_filter] passes, the output
    "You must do " followed by [t] is answered with the refusal by the
    blocklist model and with the counsel answer by the veto model. *)
Theorem must_do_prefix_refused_but_counselled (t : str) :
  is_ascii t = true ->
  brahmavihara_filter t = ret true ->
  guarded_response POLICY_BLOCKLIST (str_of "You must do " ++ t)
  = ([P_BRIT_WARNING], Returned REFUSAL)
  /\ fstdpsh_veto SAFE_STATE SERVICE_MODE brahmavihara_filter
                  (str_of "You must do " ++ t)
     = ret (COUNSEL SERVICE_MODE).
Proof.
  intros Ht Hpass.
  assert (Hlow : str_lower (str_of "You must do " ++ t)
                 = str_of "you must do " ++ str_lower t).
  { rewrite str_lower_app; [reflexivity | reflexivity | exact Ht]. }
  unfold brahmavihara_filter, ret in Hpass. injection Hpass as Hpass.
  apply negb_true_iff in Hpass.
  split.
  - rewrite guarded_response_existsb.
    assert (Hex : existsb (fun w => str_contains (str_lower (str_of "You must do " ++ t)) w)
                    POLICY_BLOCKLIST = true).
    { apply existsb_exists. exists (str_of "must do"). split.
      - vm_compute. tauto.
      - rewrite Hlow. apply str_contains_iff.
        exists (str_of "you "), (str_of " " ++ str_lower t). reflexivity. }
    rewrite Hex. reflexivity.
  - unfold fstdpsh_veto, brahmavihara_filter.
    rewrite bind_ret_l, Hlow, must_do_prefix_adds_no_destroy, Hpass.
    reflexivity.
Qed.
End Disagreement.

Lemma destroy_prefix_bypasses_blocklist_witness :
  guarded_response (U := ascii_only) POLICY_BLOCKLIST
    (str_of "Destroy " ++ str_of "your life to rebuild.")
  = ret (str_of "Destroy " ++ str_of "your life to rebuild.").
Proof.
  refine (proj1 (proj2 (@destroy_prefix_bypasses_blocklist ascii_only
                          (str_of "your life to rebuild.") _ _)));
    vm_compute; reflexivity.
Defined.

Lemma must_do_prefix_refused_but_counselled_witness :
  fstdpsh_veto SAFE_STATE SERVICE_MODE (brahmavihara_filter (U := ascii_only))
    (str_of "You must do " ++ str_of "your homework")
  = ret (COUNSEL SERVICE_MODE).
Proof.
  refine (proj2 (@must_do_prefix_refused_but_counselled ascii_only
                   (str_of "your homework") _ _));
    vm_compute; reflexivity.
Defined.

(** ** [any] with tests that print or raise *)

(** X13: when [any] over a generator returns, it has run the tests of a
    prefix of the items, in order, and printed their lines in that order.
    Returning [True], the last test run returned [True], every earlier one
    returned [False], and the items after it are left in the iterator.
    Returning [False], every item was tested, each test returned [False],
    and the iterator is exhausted. *)
Theorem py_any_returns_first_true {A} (test : A -> M bool) (it : list A)
    (out : list str) (b : bool) (rest : list A) :
  py_any test it = (out, Returned (b, rest)) ->
  (b = true ->
   exists pre x,
     it = pre ++ x :: rest
     /\ (forall y, In y pre -> snd (test y) = Returned false)
     /\ snd (test x) = Returned true
     /\ out = flat_map (fun y => fst (test y)) (pre ++ [x]))
  /\ (b = false ->
      rest = []
      /\ (forall y, In y it -> snd (test y) = Returned false)
      /\ out = flat_map (fun y => fst (test y)) it).
Proof.
  revert out b rest. induction it as [|x l IH]; intros out b rest H.
  - cbn in H. injection H as <- <- <-. split; [discriminate|].
    intros _. split; [reflexivity|]. split; [intros y []|reflexivity].
  - cbn [py_any] in H. destruct (test x) as [o [bx|e]] eqn:Tx; [|discriminate H].
    destruct bx.
    + cbn in H. injection H as <- <- <-. split; [|discriminate].
      intros _. exists [], x. cbn. rewrite Tx. cbn.
      split; [reflexivity|]. split; [intros y []|]. split; reflexivity.
    + cbn [bind] in H. destruct (py_any test l) as [o' r'] eqn:E.
      injection H as <- ->. destruct (IH o' b rest eq_refl) as [IHt IHf]. split.
      * intros Hb. destruct (IHt Hb) as [pre [x0 [-> [Hpre [Hx0 ->]]]]].
        exists (x :: pre), x0. split; [reflexivity|]. split; [|split].
        -- intros y [<- | Hy]; [rewrite Tx; reflexivity | apply Hpre; exact Hy].
        -- exact Hx0.
        -- cbn [app flat_map]. rewrite Tx. reflexivity.
      * intros Hb. destruct (IHf Hb) as [-> [Hall ->]].
        split; [reflexivity|]. split.
        -- intros y [<- | Hy]; [rewrite Tx; reflexivity | apply Hall; exact Hy].
        -- cbn [flat_map]. rewrite Tx. reflexivity.
Qed.

Lemma py_any_returns_first_true_witness :
  exists pre x,
    POLICY_BLOCKLIST = pre ++ x :: List.tl POLICY_BLOCKLIST
    /\ (forall y, In y pre ->
        snd (blocklist_test (U := ascii_only) DESTRUCTIVE_OUTPUT y) = Returned false)
    /\ snd (blocklist_test (U := ascii_only) DESTRUCTIVE_OUTPUT x) = Returned true
    /\ [] = flat_map (fun y => fst (blocklist_test (U := ascii_only) DESTRUCTIVE_OUTPUT y))
                     (pre ++ [x]).
Proof.
  refine (proj1 (@py_any_returns_first_true str
                   (blocklist_test (U := ascii_only) DESTRUCTIVE_OUTPUT)
                   POLICY_BLOCKLIST [] true (List.tl POLICY_BLOCKLIST) _) _).
  - vm_compute. reflexivity.
  - reflexivity.
Defined.

(** ** The driver's report on test 1 *)


(** * The shared [SAFE_STATE] object *)

Lemma heap_get_new (h : heap) (d : dict) :
  heap_get (h ++ [d]) (List.length h) = Some d.
Proof.
  unfold heap_get. rewrite nth_error_app2 by apply le_n.
  rewrite Nat.sub_diag. reflexivity.
Qed.

Lemma heap_get_old (h l : heap) (r : ref) (d : dict) :
  heap_get h r = Some d -> heap_get (h ++ l) r = Some d.
Proof.
  unfold heap_get. intros H. rewrite nth_error_app1; [exact H|].
  apply nth_error_Some. rewrite H. discriminate.
Qed.

Section StoreFacts.
Variable safe : ref.
Variable service_mode : value.
Variable filter : str -> M bool.

Lemma fstdpsh_veto_st_violation (O_raw : str) (out : list str) (h : heap) :
  filter O_raw = (out, Returned false) ->
  fstdpsh_veto_st safe service_mode filter O_raw h
  = (h, (out ++ [F_SOV_VETO], Returned safe)).
Proof.
  intros H. unfold fstdpsh_veto_st, run_bind, run_lift. rewrite H. reflexivity.
Qed.

Lemma fstdpsh_veto_st_pass (O_raw : str) (out : list str) (h : heap) :
  filter O_raw = (out, Returned true) ->
  fstdpsh_veto_st safe service_mode filter O_raw h
  = (h ++ [COUNSEL_items service_mode], (out ++ [], Returned (List.length h))).
Proof.
  intros H. unfold fstdpsh_veto_st, run_bind, run_lift. rewrite H. reflexivity.
Qed.

Lemma fstdpsh_veto_st_raise (O_raw : str) (out : list str) (e : exn) (h : heap) :
  filter O_raw = (out, Raised e) ->
  fstdpsh_veto_st safe service_mode filter O_raw h = (h, (out, Raised e)).
Proof.
  intros H. unfold fstdpsh_veto_st, run_bind, run_lift. rewrite H. reflexivity.
Qed.

(** The model in the store and the model over values agree: what the caller
    sees of a call in a store where [SAFE_STATE] holds the items [d] is what
    [fstdpsh_veto] returns when [SAFE_STATE] is the dict value [VDict d]. *)
Lemma fstdpsh_veto_st_refines (O_raw : str) (h : heap) (d : dict) :
  heap_get h safe = Some d ->
  observe (fstdpsh_veto_st safe service_mode filter O_raw h)
  = match fstdpsh_veto (VDict d) service_mode filter O_raw with
    | (out, Returned (VDict items)) => (out, Returned (Some items))
    | (out, Returned _) => (out, Returned None)
    | (out, Raised e) => (out, Raised e)
    end.
Proof.
  intros Hd. unfold fstdpsh_veto.
  destruct (filter O_raw) as [out [[|]|e]] eqn:E.
  - rewrite (fstdpsh_veto_st_pass h E). cbn [observe].
    rewrite heap_get_new. reflexivity.
  - rewrite (fstdpsh_veto_st_violation h E). cbn [observe].
    rewrite Hd. reflexivity.
  - rewrite (fstdpsh_veto_st_raise h E). reflexivity.
Qed.

(** A call changes no object that exists: it only adds one, in the counsel
    branch. *)
Lemma fstdpsh_veto_st_frame (O_raw : str) (h : heap) (r : ref) (c : dict) :
  heap_get h r = Some c ->
  heap_get (fst (fstdpsh_veto_st safe service_mode filter O_raw h)) r = Some c.
Proof.
  intros Hr. destruct (filter O_raw) as [out [[|]|e]] eqn:E.
  - rewrite (fstdpsh_veto_st_pass h E). cbn [fst]. apply heap_get_old. exact Hr.
  - rewrite (fstdpsh_veto_st_violation h E). exact Hr.
  - rewrite (fstdpsh_veto_st_raise h E). exact Hr.
Qed.

Lemma fstdpsh_veto_st_same_items (O_raw : str) (h h' : heap) (d : dict) :
  heap_get h safe = Some d -> heap_get h' safe = Some d ->
  observe (fstdpsh_veto_st safe service_mode filter O_raw h)
  = observe (fstdpsh_veto_st safe service_mode filter O_raw h').
Proof.
  intros H H'.
  rewrite (fstdpsh_veto_st_refines O_raw h H), (fstdpsh_veto_st_refines O_raw h' H').
  reflexivity.
Qed.
End StoreFacts.




(** * Termination of the scan loop *)

Lemma bind_returned {A B} (out : list str) (a : A) (k : A -> M B) :
  bind (out, Returned a) k = prepend out (k a).
Proof. unfold bind, prepend. destruct (k a). reflexivity. Qed.

Lemma skipn_nth_error {A} (l : list A) (i : nat) (x : A) :
  nth_error l i = Some x -> skipn i l = x :: skipn (S i) l.
Proof.
  revert i. induction l as [|a l IH]; intros [|i] H; try discriminate H.
  - injection H as ->. reflexivity.
  - cbn [nth_error] in H. change (skipn (S i) (a :: l)) with (skipn i l).
    rewrite (IH i H). reflexivity.
Qed.

(** With more requests allowed than items left, the loop ends, with the
    result of [py_any] on the items from position [i] on. *)
Lemma any_loop_enough {A} (test : A -> M bool) (it : list A) (fuel i : nat) :
  List.length it - i < fuel ->
  any_loop fuel test it i = Some (py_any test (skipn i it)).
Proof.
  revert i. induction fuel as [|fuel IH]; intros i Hfuel; [lia|].
  cbn [any_loop]. destruct (nth_error it i) as [x|] eqn:E.
  - assert (Hi : i < List.length it) by (apply nth_error_Some; rewrite E; discriminate).
    rewrite (skipn_nth_error _ _ E). cbn [py_any].
    destruct (test x) as [out [[|]|e]].
    + rewrite bind_returned. reflexivity.
    + rewrite IH by lia. rewrite bind_returned. reflexivity.
    + reflexivity.
  - apply nth_error_None in E. rewrite skipn_all2 by exact E. reflexivity.
Qed.

(** With no more requests allowed than items left, and no item true, the
    loop is still running when the fuel runs out. *)
Lemma any_loop_short {A} (test : A -> M bool) (it : list A) (fuel i : nat) :
  i + fuel <= List.length it ->
  (forall y, In y it -> snd (test y) = Returned false) ->
  any_loop fuel test it i = None.
Proof.
  intros Hfuel Hall. revert i Hfuel.
  induction fuel as [|fuel IH]; intros i Hfuel; [reflexivity|].
  cbn [any_loop]. destruct (nth_error it i) as [x|] eqn:E.
  - specialize (Hall x (nth_error_In _ _ E)).
    destruct (test x) as [out [[|]|e]]; try discriminate Hall.
    rewrite IH by lia. reflexivity.
  - apply nth_error_None in E. lia.
Qed.

Section Termination.
Context {U : UnicodeData}.

Lemma guardrail_scan_fuel_enough (blocklist : list str) (output : str) (fuel : nat) :
  List.length blocklist < fuel ->
  guardrail_scan_fuel fuel blocklist output = Some (guardrail_scan blocklist output).
Proof.
  intros H. unfold guardrail_scan_fuel, guardrail_scan.
  rewrite any_loop_enough by lia. reflexivity.
Qed.

Lemma guarded_response_fuel_enough (blocklist : list str) (output : str) (fuel : nat) :
  List.length blocklist < fuel ->
  guarded_response_fuel fuel blocklist output = Some (guarded_response blocklist output).
Proof.
  intros H. unfold guarded_response_fuel.
  rewrite guardrail_scan_fuel_enough by exact H. reflexivity.
Qed.

(** C10: every call ends and returns a value.  The only loop is the scan of
    the blocklist inside [any]: run one request at a time, it ends within one
    request more than the blocklist has entries, for every blocklist and every
    output, with the result of the filter; for [POLICY_BLOCKLIST] that is
    within six requests.  With fewer requests allowed, a scan that finds no
    entry has not ended.  The rest of the four functions is straight-line
    code around that loop and around one substring test, and each of them
    returns a value, never an exception, on every string. *)
Theorem evaluation_terminates_within_fuel (output prompt : str) :
  (forall (blocklist : list str) (fuel : nat),
      List.length blocklist < fuel ->
      guardrail_scan_fuel fuel blocklist output = Some (guardrail_scan blocklist output)
      /\ guarded_response_fuel fuel blocklist output
         = Some (guarded_response blocklist output))
  /\ guardrail_scan_fuel 6 POLICY_BLOCKLIST output
     = Some (current_ai_guardrail_filter output)
  /\ guarded_response_fuel 6 POLICY_BLOCKLIST DESTRUCTIVE_OUTPUT
     = Some (current_ai_response_model prompt)
  /\ (forall (blocklist : list str) (fuel : nat),
        fuel <= List.length blocklist ->
        (forall word, In word blocklist ->
                      str_contains (str_lower output) word = false) ->
        guardrail_scan_fuel fuel blocklist output = None)
  /\ (exists out b, current_ai_guardrail_filter output = (out, Returned b))
  /\ (exists b, brahmavihara_filter output = ([], Returned b))
  /\ (exists out r, current_ai_response_model prompt = (out, Returned r))
  /\ (exists out v,
        fstdpsh_sovereign_response_model SAFE_STATE SERVICE_MODE brahmavihara_filter prompt
        = (out, Returned v)).
Proof.
  split.
  { intros blocklist fuel H. split.
    - apply guardrail_scan_fuel_enough. exact H.
    - apply guarded_response_fuel_enough. exact H. }
  split; [apply guardrail_scan_fuel_enough; cbn; lia|].
  split; [apply guarded_response_fuel_enough; cbn; lia|].
  split.
  { intros blocklist fuel Hfuel Hnone. unfold guardrail_scan_fuel.
    rewrite any_loop_short; [reflexivity | cbn; lia |].
    intros y Hy. unfold blocklist_test. rewrite (Hnone y Hy). reflexivity. }
  split; [apply current_ai_guardrail_filter_returns|].
  split; [eexists; reflexivity|].
  split; [eexists; eexists; apply current_ai_response_model_returns|].
  eexists; eexists; apply sovereign_response_model_returns.
Qed.
End Termination.
